(** * Sales tracker: the data model, filters, statistics and persistence of
      [src/app.js], embedded in Rocq, with the properties the specification
      states about them.

    The program is a browser script.  Its state is a handful of top-level
    variables ([salesReps], [currentFilter], [customStartDate],
    [customEndDate]) plus the browser's [localStorage]; its operations are
    event handlers.  The embedding threads that state explicitly through
    every handler.  What the handlers obtain from the browser (the clock,
    the answer typed into [prompt], the answer to [confirm], the value of
    an input field, the time zone) is an argument of the handler here.

    Conventions.
    - A JavaScript Number is an IEEE 754 binary64 value: [spec_float] at
      precision 53 and maximal exponent 1024, with the operations of
      [SpecFloat].  Counters and identifiers that the program only ever
      increments or compares ([deals], [id]) are integers, which a
      Number holds exactly below 2^53; they are kept as [Z].
    - A JavaScript string is a [string] whose characters stand for code
      units below 256.
    - A time value is a number of milliseconds since the epoch, a [Z];
      an invalid [Date] (time value NaN) is [None]. *)

From Stdlib Require Import ZArith List String Ascii Bool Lia.
From Stdlib Require Import Floats.SpecFloat.
From stdpp Require Import base option gmap strings.
Import ListNotations.

Open Scope string_scope.
Open Scope list_scope.
Open Scope Z_scope.

(* ================================================================== *)
(** * Numbers *)

Module Num.

Definition prec : Z := 53.
Definition emax : Z := 1024.

Definition number : Type := spec_float.

Definition NaN : number := S754_nan.
Definition zero : number := S754_zero false.
Definition Infinity : number := S754_infinity false.

(** [x + y] *)
Definition add (x y : number) : number := SFadd prec emax x y.

(** [x < y]; [x > y] is [lt y x]. *)
Definition lt (x y : number) : bool := SFltb x y.
Definition gt (x y : number) : bool := lt y x.
Definition le (x y : number) : bool := SFleb x y.

Definition isNaN (x : number) : bool :=
  match x with S754_nan => true | _ => false end.

Definition isZero (x : number) : bool :=
  match x with S754_zero _ => true | _ => false end.

Definition isFinite (x : number) : bool :=
  match x with
  | S754_zero _ | S754_finite _ _ _ => true
  | S754_infinity _ | S754_nan => false
  end.

(** ToBoolean on a Number: [+0], [-0] and [NaN] are falsy. *)
Definition truthy (x : number) : bool := negb (isNaN x || isZero x).

(** The Number nearest to an integer (ties to even). *)
Definition ofZ (z : Z) : number := binary_normalize prec emax z 0 false.

(** The Number nearest to [(-1)^neg * m * 10^e10] (ties to even), the
    rounding ECMAScript applies to the mathematical value of a numeric
    string.  For a negative power of ten the quotient is formed with
    enough bits and the position of the remainder is handed to the
    rounding, as [SFdiv] does for two floats. *)
Definition ofDecimal (neg : bool) (m : Z) (e10 : Z) : number :=
  match m with
  | Zpos p =>
      match e10 with
      | Zneg k =>
          let '(q, e, l) :=
            SFdiv_core_binary prec emax (Zpos p) 0 (10 ^ Zpos k) 0 in
          binary_round_aux prec emax neg q e l
      | _ =>
          match Zpos p * 10 ^ e10 with
          | Zpos n => binary_round prec emax neg n 0
          | _ => S754_zero neg
          end
      end
  | _ => S754_zero neg
  end.

End Num.

Abbreviation number := Num.number.

(* ================================================================== *)
(** * Strings *)

Module Str.

Definition code (c : ascii) : Z := Z.of_N (N_of_ascii c).

Definition ofCode (z : Z) : ascii := ascii_of_N (Z.to_N z).

(** WhiteSpace and LineTerminator code units below 256: TAB, LF, VT,
    FF, CR, SP and NBSP.  These are what [String.prototype.trim] and
    [parseFloat] strip. *)
Definition isWhiteSpace (c : ascii) : bool :=
  let n := code c in
  ((9 <=? n) && (n <=? 13)) || (n =? 32) || (n =? 160).

Fixpoint trimStart (s : string) : string :=
  match s with
  | String c s' => if isWhiteSpace c then trimStart s' else s
  | EmptyString => EmptyString
  end.

Fixpoint trimEnd (s : string) : string :=
  match s with
  | String c s' =>
      match trimEnd s' with
      | EmptyString => if isWhiteSpace c then EmptyString
                       else String c EmptyString
      | t => String c t
      end
  | EmptyString => EmptyString
  end.

(** [s.trim()] *)
Definition trim (s : string) : string := trimEnd (trimStart s).

(** The lower-case mapping of one code unit below 256: [A]-[Z] and
    the accented capitals U+00C0-U+00DE (U+00D7, the multiplication
    sign, apart) move up by 32; every other code unit is fixed. *)
Definition lowerChar (c : ascii) : ascii :=
  let n := code c in
  if ((65 <=? n) && (n <=? 90))
     || ((192 <=? n) && (n <=? 222) && negb (n =? 215))
  then ofCode (n + 32) else c.

(** [s.toLowerCase()] *)
Fixpoint toLowerCase (s : string) : string :=
  match s with
  | String c s' => String (lowerChar c) (toLowerCase s')
  | EmptyString => EmptyString
  end.

(** [s === ''] *)
Definition isEmpty (s : string) : bool :=
  match s with EmptyString => true | _ => false end.

Definition isDigit (c : ascii) : bool :=
  let n := code c in (48 <=? n) && (n <=? 57).

Definition digitVal (c : ascii) : Z := code c - 48.

(** Reads the longest run of decimal digits at the head of [s],
    continuing the value [acc]: the value read, the number of digits
    and the rest of the string. *)
Fixpoint readDigits (acc : Z) (cnt : Z) (s : string) : Z * Z * string :=
  match s with
  | String c s' =>
      if isDigit c then readDigits (10 * acc + digitVal c) (cnt + 1) s'
      else (acc, cnt, s)
  | EmptyString => (acc, cnt, s)
  end.

(** [s.startsWith(p)], with the remainder of [s]. *)
Fixpoint stripPrefix (p s : string) : option string :=
  match p, s with
  | EmptyString, _ => Some s
  | String a p', String b s' =>
      if Ascii.eqb a b then stripPrefix p' s' else None
  | String _ _, EmptyString => None
  end.

End Str.

(* ================================================================== *)
(** * parseFloat *)

(** The optional exponent part [e|E] [+|-]? digits of a decimal literal.
    Without at least one digit the exponent indicator is not part of the
    literal, and the exponent is 0. *)
Definition readExponent (s : string) : Z :=
  match s with
  | String c s' =>
      if (Str.code c =? 101) || (Str.code c =? 69) then
        let '(neg, s'') :=
          match s' with
          | String d t =>
              if Str.code d =? 45 then (true, t)
              else if Str.code d =? 43 then (false, t)
              else (false, s')
          | EmptyString => (false, s')
          end in
        let '(e, n, _) := Str.readDigits 0 0 s'' in
        if n =? 0 then 0 else if neg then - e else e
      else 0
  | EmptyString => 0
  end.

(** The longest prefix of [s] that is a StrUnsignedDecimalLiteral
    ([Infinity], [d+.d*], [.d+] or [d+], each of the last three with an
    optional exponent), as the Number it denotes; NaN when no prefix is
    one. *)
Definition parseUnsigned (neg : bool) (s : string) : number :=
  match Str.stripPrefix "Infinity" s with
  | Some _ => S754_infinity neg
  | None =>
      let '(m1, n1, r1) := Str.readDigits 0 0 s in
      match r1 with
      | String c r1' =>
          if Str.code c =? 46 then
            let '(m2, n2, r2) := Str.readDigits m1 0 r1' in
            if (n1 =? 0) && (n2 =? 0) then Num.NaN
            else Num.ofDecimal neg m2 (readExponent r2 - n2)
          else
            if n1 =? 0 then Num.NaN
            else Num.ofDecimal neg m1 (readExponent r1)
      | EmptyString =>
          if n1 =? 0 then Num.NaN else Num.ofDecimal neg m1 0
      end
  end.

(** [parseFloat(s)]: leading white space is skipped, an optional sign is
    read, and the longest numeric prefix is converted; what follows the
    prefix is ignored. *)
Definition parseFloat (s : string) : number :=
  match Str.trimStart s with
  | String c t =>
      if Str.code c =? 45 then parseUnsigned true t
      else if Str.code c =? 43 then parseUnsigned false t
      else parseUnsigned false (String c t)
  | EmptyString => Num.NaN
  end.

(* ================================================================== *)
(** * Dates *)

(** The browser's time zone: the offset of local time from UTC, in
    milliseconds, at a time value read as UTC ([true]) or as local time
    ([false]).  ECMAScript leaves it to the host. *)
Class Host := { LocalTZA : Z -> bool -> Z }.

(** A host whose local time is UTC. *)
Definition utcHost : Host := {| LocalTZA := fun _ _ => 0 |}.

Module JSDate.

Definition msPerDay : Z := 86400000.
Definition msPerHour : Z := 3600000.
Definition msPerMinute : Z := 60000.
Definition msPerSecond : Z := 1000.

(** A time value, or [None] for NaN (an invalid Date). *)
Definition timeValue : Type := option Z.

Definition TimeClip (t : Z) : timeValue :=
  if Z.abs t <=? 8640000000000000 then Some t else None.

Definition Day (t : Z) : Z := t / msPerDay.
Definition TimeWithinDay (t : Z) : Z := t mod msPerDay.

(** The day number of the civil date [y]-[m]-[d] of the proleptic
    Gregorian calendar, [m] counted from 1. *)
Definition daysFromCivil (y m d : Z) : Z :=
  let y' := if m <=? 2 then y - 1 else y in
  let era := y' / 400 in
  let yoe := y' - era * 400 in
  let mp := if 2 <? m then m - 3 else m + 9 in
  let doy := (153 * mp + 2) / 5 + d - 1 in
  let doe := yoe * 365 + yoe / 4 - yoe / 100 + doy in
  era * 146097 + doe - 719468.

(** The civil date (year, month from 1, day of the month) of a day
    number. *)
Definition civilFromDays (z : Z) : Z * Z * Z :=
  let z' := z + 719468 in
  let era := z' / 146097 in
  let doe := z' - era * 146097 in
  let yoe := (doe - doe / 1460 + doe / 36524 - doe / 146096) / 365 in
  let doy := doe - (365 * yoe + yoe / 4 - yoe / 100) in
  let mp := (5 * doy + 2) / 153 in
  let d := doy - (153 * mp + 2) / 5 + 1 in
  let m := if mp <? 10 then mp + 3 else mp - 9 in
  ((if m <=? 2 then yoe + era * 400 + 1 else yoe + era * 400), m, d).

Definition YearFromTime (t : Z) : Z := fst (fst (civilFromDays (Day t))).
(** Months are counted from 0, as JavaScript does. *)
Definition MonthFromTime (t : Z) : Z :=
  snd (fst (civilFromDays (Day t))) - 1.
Definition DateFromTime (t : Z) : Z := snd (civilFromDays (Day t)).

(** MakeDay: the month may lie outside 0..11 and the date outside the
    month; both carry over. *)
Definition MakeDay (year month date : Z) : Z :=
  daysFromCivil (year + month / 12) (month mod 12 + 1) 1 + date - 1.

Definition MakeTime (h m s ms : Z) : Z :=
  h * msPerHour + m * msPerMinute + s * msPerSecond + ms.

Definition MakeDate (day time : Z) : Z := day * msPerDay + time.

Definition DaysInMonth (y m : Z) : Z :=
  MakeDay y (m + 1) 1 - MakeDay y m 1.

Section WithHost.
Context {H : Host}.

Definition LocalTime (t : Z) : Z := t + LocalTZA t true.
Definition UTC (t : Z) : Z := t - LocalTZA t false.

(** [d.getFullYear()], [d.getMonth()], [d.getDate()] *)
Definition getFullYear (t : Z) : Z := YearFromTime (LocalTime t).
Definition getMonth (t : Z) : Z := MonthFromTime (LocalTime t).
Definition getDate (t : Z) : Z := DateFromTime (LocalTime t).

(** [new Date(year, month, date)]: a local date at midnight.  A year
    from 0 to 99 stands for 1900 + year. *)
Definition ofLocalDate (year month date : Z) : timeValue :=
  let yr := if (0 <=? year) && (year <=? 99) then 1900 + year
            else year in
  TimeClip (UTC (MakeDate (MakeDay yr month date) 0)).

(** [d.setHours(h, m, s, ms)] followed by [d.getTime()] *)
Definition setHours (d : timeValue) (h m s ms : Z) : timeValue :=
  match d with
  | Some t =>
      TimeClip (UTC (MakeDate (Day (LocalTime t)) (MakeTime h m s ms)))
  | None => None
  end.
End WithHost.

(** [new Date(ms)] *)
Definition ofTime (t : Z) : timeValue := TimeClip t.

(** Comparison of two Dates with [>=], [<=] and of their time values
    with [===]: false as soon as one side is NaN. *)
Definition ge (a b : timeValue) : bool :=
  match a, b with Some x, Some y => y <=? x | _, _ => false end.
Definition le (a b : timeValue) : bool :=
  match a, b with Some x, Some y => x <=? y | _, _ => false end.
Definition eq (a b : timeValue) : bool :=
  match a, b with Some x, Some y => x =? y | _, _ => false end.

(** Exactly [n] decimal digits at the head of [s]. *)
Fixpoint readFixed (n : nat) (acc : Z) (s : string) : option (Z * string) :=
  match n with
  | O => Some (acc, s)
  | S n' =>
      match s with
      | String c s' =>
          if Str.isDigit c then readFixed n' (10 * acc + Str.digitVal c) s'
          else None
      | EmptyString => None
      end
  end.

Definition expect (c : string) (s : string) : option string :=
  Str.stripPrefix c s.

(** The year of the date-time format: four digits, or a sign and six
    digits ([-000000] is not a year). *)
Definition readYear (s : string) : option (Z * string) :=
  match s with
  | String c s' =>
      if Str.code c =? 43 then readFixed 6 0 s'
      else if Str.code c =? 45 then
        match readFixed 6 0 s' with
        | Some (y, r) => if y =? 0 then None else Some (- y, r)
        | None => None
        end
      else readFixed 4 0 s
  | EmptyString => None
  end.

(** [Date.parse], for the two forms of the date-time format that the
    program produces or is handed: the date alone, [YYYY-MM-DD] (what a
    date input holds; read as UTC midnight), and the full form
    [YYYY-MM-DDTHH:mm:ss.sssZ] (what [toISOString] writes).  Text in
    any other form, whose reading ECMAScript leaves to the
    implementation, is an invalid date here. *)
Definition parse (s : string) : timeValue :=
  y ← readYear s; let '(yr, s) := y in
  s ← expect "-" s;
  m ← readFixed 2 0 s; let '(mo, s) := m in
  s ← expect "-" s;
  d ← readFixed 2 0 s; let '(dd, s) := d in
  if negb ((1 <=? mo) && (mo <=? 12) && (1 <=? dd)
           && (dd <=? DaysInMonth yr (mo - 1)))
  then None
  else
    let day := MakeDay yr (mo - 1) dd in
    match s with
    | EmptyString => TimeClip (MakeDate day 0)
    | _ =>
        s ← expect "T" s;
        h ← readFixed 2 0 s; let '(hh, s) := h in
        s ← expect ":" s;
        m ← readFixed 2 0 s; let '(mi, s) := m in
        s ← expect ":" s;
        x ← readFixed 2 0 s; let '(ss, s) := x in
        s ← expect "." s;
        x ← readFixed 3 0 s; let '(ms, s) := x in
        s ← expect "Z" s;
        if Str.isEmpty s && (mi <=? 59) && (ss <=? 59)
           && ((hh <=? 23) || ((hh =? 24) && (mi =? 0) && (ss =? 0)
                               && (ms =? 0)))
        then TimeClip (MakeDate day (MakeTime hh mi ss ms))
        else None
    end.

(** The last [n] decimal digits of [z], most significant first. *)
Fixpoint digits (n : nat) (z : Z) : string :=
  match n with
  | O => EmptyString
  | S n' =>
      digits n' (z / 10) +:+ String (Str.ofCode (48 + z mod 10)) EmptyString
  end.

(** [new Date(t).toISOString()], for a valid time value [t]. *)
Definition toISOString (t : Z) : string :=
  let y := YearFromTime t in
  let w := TimeWithinDay t in
  (if (0 <=? y) && (y <=? 9999) then digits 4 y
   else if y <? 0 then "-" +:+ digits 6 (- y)
   else "+" +:+ digits 6 y)
  +:+ "-" +:+ digits 2 (MonthFromTime t + 1)
  +:+ "-" +:+ digits 2 (DateFromTime t)
  +:+ "T" +:+ digits 2 (w / msPerHour)
  +:+ ":" +:+ digits 2 (w mod msPerHour / msPerMinute)
  +:+ ":" +:+ digits 2 (w mod msPerMinute / msPerSecond)
  +:+ "." +:+ digits 3 (w mod msPerSecond) +:+ "Z".

End JSDate.

(* ================================================================== *)
(** * The data model *)

(** One entry of a representative's [dealHistory]:
    [{ date: new Date().toISOString(), amount: value }]. *)
Module Deal.
Record t : Type := mk { date : string; amount : number }.
End Deal.

(** One entry of [salesReps], in the shape [addRep] creates. *)
Module Rep.
Record t : Type := mk {
  id : Z;
  name : string;
  deals : Z;
  revenue : number;
  dealHistory : list Deal.t
}.
End Rep.

(* ================================================================== *)
(** * JavaScript values and JSON *)

(** The values [JSON.parse] can return.  An object is the list of its
    properties in creation order. *)
#[warnings="-register-all"]
Inductive jsval : Type :=
  | VNull
  | VBool (b : bool)
  | VNum (n : number)
  | VStr (s : string)
  | VArr (l : list jsval)
  | VObj (ps : list (string * jsval)).

Module JS.

(** ToBoolean *)
Definition truthy (v : jsval) : bool :=
  match v with
  | VNull => false
  | VBool b => b
  | VNum n => Num.truthy n
  | VStr s => negb (Str.isEmpty s)
  | VArr _ | VObj _ => true
  end.

(** The own property [k] of an object's property list. *)
Fixpoint lookup (k : string) (ps : list (string * jsval)) : option jsval :=
  match ps with
  | (k', v) :: ps' => if String.eqb k k' then Some v else lookup k ps'
  | [] => None
  end.

(** Defining the property [k]: an existing property keeps its place and
    takes the new value, a new one goes last. *)
Fixpoint define (k : string) (v : jsval) (ps : list (string * jsval))
  : list (string * jsval) :=
  match ps with
  | (k', v') :: ps' =>
      if String.eqb k k' then (k', v) :: ps' else (k', v') :: define k v ps'
  | [] => [(k, v)]
  end.

(** The decimal numeral of a natural number, as a property key. *)
Fixpoint decimal (fuel : nat) (z : Z) (acc : string) : string :=
  match fuel with
  | O => acc
  | S fuel' =>
      if z =? 0 then acc
      else decimal fuel' (z / 10) (String (Str.ofCode (48 + z mod 10)) acc)
  end.

Definition indexKey (i : nat) : string :=
  match i with
  | O => "0"
  | _ => decimal i (Z.of_nat i) EmptyString
  end.

Fixpoint indexed {A} (f : A -> jsval) (i : nat) (l : list A)
  : list (string * jsval) :=
  match l with
  | x :: l' => (indexKey i, f x) :: indexed f (S i) l'
  | [] => []
  end.

(** The own enumerable properties that [{...v}] copies: those of an
    object, the elements of an array and the characters of a string
    under their indices, none for the other values. *)
Definition spread (v : jsval) : list (string * jsval) :=
  match v with
  | VObj ps => ps
  | VArr l => indexed (fun x => x) 0 l
  | VStr s =>
      indexed (fun c => VStr (String c EmptyString)) 0 (list_ascii_of_string s)
  | VNull | VBool _ | VNum _ => []
  end.

(** [v.k] where [v] is not null: the own property of an object; the
    keys the program reads ([dealHistory]) are defined on no other kind
    of value. *)
Definition get (k : string) (v : jsval) : option jsval :=
  match v with
  | VObj ps => lookup k ps
  | _ => None
  end.

(** What [JSON.parse(JSON.stringify(v))] returns.  JSON has no
    notation for NaN and the infinities, which are written [null], and
    writes negative zero as [0]; everything else is written in a form
    that reads back as itself. *)
Fixpoint rewritten (v : jsval) : jsval :=
  match v with
  | VNum n =>
      if Num.isFinite n
      then (if Num.isZero n then VNum Num.zero else VNum n)
      else VNull
  | VArr l => VArr (List.map rewritten l)
  | VObj ps => VObj (List.map (fun kv => (fst kv, rewritten (snd kv))) ps)
  | VNull | VBool _ | VStr _ => v
  end.

(** A value that JSON writes and reads back unchanged: every number in
    it is finite and not negative zero. *)
Fixpoint exact (v : jsval) : bool :=
  match v with
  | VNum n =>
      Num.isFinite n
      && match n with S754_zero true => false | _ => true end
  | VArr l => forallb exact l
  | VObj ps => forallb (fun kv => exact (snd kv)) ps
  | VNull | VBool _ | VStr _ => true
  end.

End JS.

(** What a key of [localStorage] holds: a string.  A string that is the
    JSON text of a value is represented by that value; any other string
    is kept as it is. *)
Inductive blob : Type :=
  | Doc (v : jsval)
  | Raw (s : string).

Inductive storageStatus : Type :=
  | Working
  | Full       (** [setItem] throws (quota exceeded) *)
  | Blocked.   (** every access throws (storage disabled) *)

Record Storage : Type := mkStorage {
  items : gmap string blob;
  status : storageStatus
}.

Module LS.

(** [localStorage.getItem(k)]: [None] when the call throws, else the
    string stored or [null]. *)
Definition getItem (k : string) (ls : Storage) : option (option blob) :=
  match status ls with
  | Blocked => None
  | _ => Some (items ls !! k)
  end.

(** [localStorage.setItem(k, b)]: [None] when the call throws. *)
Definition setItem (k : string) (b : blob) (ls : Storage) : option Storage :=
  match status ls with
  | Working => Some (mkStorage (<[k := b]> (items ls)) Working)
  | _ => None
  end.

(** ToBoolean on a stored string: only the empty string is falsy. *)
Definition truthy (b : blob) : bool :=
  match b with
  | Doc _ => true
  | Raw s => negb (Str.isEmpty s)
  end.

End LS.

(** [JSON.stringify(v)] *)
Definition JSON_stringify (v : jsval) : blob := Doc (JS.rewritten v).

(** [JSON.parse(b)]: [None] when it throws a SyntaxError. *)
Definition JSON_parse (b : blob) : option jsval :=
  match b with
  | Doc v => Some v
  | Raw _ => None
  end.

(** The object a representative is in the program's memory. *)
Definition dealToJS (d : Deal.t) : jsval :=
  VObj [("date", VStr (Deal.date d)); ("amount", VNum (Deal.amount d))].

Definition toJS (r : Rep.t) : jsval :=
  VObj [("id", VNum (Num.ofZ (Rep.id r)));
        ("name", VStr (Rep.name r));
        ("deals", VNum (Num.ofZ (Rep.deals r)));
        ("revenue", VNum (Rep.revenue r));
        ("dealHistory", VArr (List.map dealToJS (Rep.dealHistory r)))].

(* ================================================================== *)
(** * Loading and migrating the stored list *)

Definition storageKey : string := "salesReps".

(** The callback of [salesReps.map] at load time:
    [rep => !rep.dealHistory ? {...rep, revenue: 0, dealHistory: []} : rep].
    Reading a property of [null] throws a TypeError ([None]). *)
Definition migrate (rep : jsval) : option jsval :=
  match rep with
  | VNull => None
  | _ =>
      if match JS.get "dealHistory" rep with
         | Some h => negb (JS.truthy h)
         | None => true
         end
      then Some (VObj (JS.define "dealHistory" (VArr [])
                         (JS.define "revenue" (VNum Num.zero)
                            (JS.spread rep))))
      else Some rep
  end.

(** [l.map(f)] for a callback that may throw. *)
Fixpoint mapThrowing {A B} (f : A -> option B) (l : list A) : option (list B) :=
  match l with
  | x :: l' =>
      match f x with
      | Some y =>
          match mapThrowing f l' with
          | Some ys => Some (y :: ys)
          | None => None
          end
      | None => None
      end
  | [] => Some []
  end.

(** The top-level [try { ... } catch (e) { salesReps = []; }] that
    computes the initial [salesReps]: nothing stored, or the empty
    string, leaves the list empty; any exception (storage blocked, text
    that is not JSON, a stored value without a [map] method, a [null]
    entry) empties it. *)
Definition load (ls : Storage) : list jsval :=
  match LS.getItem storageKey ls with
  | Some (Some stored) =>
      if LS.truthy stored then
        match JSON_parse stored with
        | Some (VArr l) =>
            match mapThrowing migrate l with
            | Some l' => l'
            | None => []
            end
        | Some _ => []
        | None => []
        end
      else []
  | Some None => []
  | None => []
  end.

(* ================================================================== *)
(** * The state of the page and its handlers *)

Record State : Type := mkState {
  salesReps : list Rep.t;
  currentFilter : string;
  customStartDate : option string;     (** [null] is [None] *)
  customEndDate : option string;
  localStorage : Storage;
  alerts : list string                 (** shown by [alert], latest first *)
}.

(** The state of a page opened over an empty list. *)
Definition initial (ls : Storage) : State :=
  mkState [] "all" None None ls [].

Definition withReps (l : list Rep.t) (st : State) : State :=
  mkState l (currentFilter st) (customStartDate st) (customEndDate st)
          (localStorage st) (alerts st).

Definition alert (msg : string) (st : State) : State :=
  mkState (salesReps st) (currentFilter st) (customStartDate st)
          (customEndDate st) (localStorage st) (msg :: alerts st).

(** [saveData()]: a failed write is reported and otherwise ignored. *)
Definition saveData (st : State) : State :=
  match LS.setItem storageKey
          (JSON_stringify (VArr (List.map toJS (salesReps st))))
          (localStorage st) with
  | Some ls' =>
      mkState (salesReps st) (currentFilter st) (customStartDate st)
              (customEndDate st) ls' (alerts st)
  | None =>
      alert "Error saving data! Check if your browser allows localStorage." st
  end.

(** [addRep()], reading [input] from the name field at time [now]. *)
Definition addRep (input : string) (now : Z) (st : State) : State :=
  let name := Str.trim input in
  if Str.isEmpty name then alert "Please enter a sales rep name!" st
  else
    match List.find
            (fun rep => String.eqb (Str.toLowerCase (Rep.name rep))
                                   (Str.toLowerCase name))
            (salesReps st) with
    | Some _ => alert "This sales rep already exists!" st
    | None =>
        saveData
          (withReps (salesReps st ++ [Rep.mk now name 0 Num.zero []]) st)
    end.

(** [parseFloat(dealValue) || 0] *)
Definition dealAmount (dealValue : string) : number :=
  let v := parseFloat dealValue in
  if Num.truthy v then v else Num.zero.

(** The three updates [addDeal] makes to the representative it found. *)
Definition recordOn (value : number) (now : Z) (rep : Rep.t) : Rep.t :=
  Rep.mk (Rep.id rep) (Rep.name rep)
         (Rep.deals rep + 1)
         (Num.add (Rep.revenue rep) value)
         (Rep.dealHistory rep ++ [Deal.mk (JSDate.toISOString now) value]).

(** The list after the first element satisfying [p] is replaced by its
    image under [f]: what mutating the object returned by [find] does to
    the array that holds it. *)
Fixpoint updateFirst {A} (p : A -> bool) (f : A -> A) (l : list A) : list A :=
  match l with
  | x :: l' => if p x then f x :: l' else x :: updateFirst p f l'
  | [] => []
  end.

(** [addDeal(id)], where [prompt] returns [answer] ([None] when the
    user cancels) at time [now]. *)
Definition addDeal (id : Z) (answer : option string) (now : Z) (st : State)
  : State :=
  match List.find (fun r => Rep.id r =? id) (salesReps st) with
  | None => st
  | Some _ =>
      match answer with
      | None => st
      | Some dealValue =>
          saveData
            (withReps
               (updateFirst (fun r => Rep.id r =? id)
                            (recordOn (dealAmount dealValue) now)
                            (salesReps st))
               st)
      end
  end.

(** [removeRep(id)], where [confirm] returns [confirmed]. *)
Definition removeRep (id : Z) (confirmed : bool) (st : State) : State :=
  if confirmed then
    saveData
      (withReps (List.filter (fun r => negb (Rep.id r =? id)) (salesReps st))
                st)
  else st.

(** The [change] listener of the filter selector.  The selector is
    stored before anything is checked. *)
Definition changeDateFilter (value : string) (st : State) : State :=
  mkState (salesReps st) value (customStartDate st) (customEndDate st)
          (localStorage st) (alerts st).

(** A string variable used as a condition: [null] and [''] are falsy. *)
Definition given (s : option string) : bool :=
  match s with
  | Some t => negb (Str.isEmpty t)
  | None => false
  end.

(** The [click] listener of the apply button, reading the two date
    fields.  Both variables are assigned before they are checked. *)
Definition applyCustomRange (startValue endValue : string) (st : State)
  : State :=
  let st' := mkState (salesReps st) (currentFilter st)
                     (Some startValue) (Some endValue)
                     (localStorage st) (alerts st) in
  if negb (given (Some startValue)) || negb (given (Some endValue))
  then alert "Please select both start and end dates" st'
  else st'.

(** Choosing [custom] in the selector and pressing apply. *)
Definition setCustomFilter (startValue endValue : string) (st : State)
  : State :=
  applyCustomRange startValue endValue (changeDateFilter "custom" st).

(* ================================================================== *)
(** * Filtering and statistics *)

Section Filtering.
Context {H : Host}.

(** [new Date(deal.date)] *)
Definition dealDate (deal : Deal.t) : JSDate.timeValue :=
  JSDate.parse (Deal.date deal).

(** [new Date(v)] for a string variable; [new Date(null)] is the epoch. *)
Definition newDate (v : option string) : JSDate.timeValue :=
  match v with
  | Some text => JSDate.parse text
  | None => JSDate.ofTime 0
  end.

Definition weekMs : Z := 7 * 24 * 60 * 60 * 1000.

(** [getFilteredDeals(rep)] at time [now]. *)
Definition getFilteredDeals (st : State) (now : Z) (rep : Rep.t)
  : list Deal.t :=
  let since (startDate : JSDate.timeValue) :=
    List.filter (fun deal => JSDate.ge (dealDate deal) startDate)
                (Rep.dealHistory rep) in
  if String.eqb (currentFilter st) "all" then Rep.dealHistory rep
  else if String.eqb (currentFilter st) "today" then
    since (JSDate.ofLocalDate (JSDate.getFullYear now) (JSDate.getMonth now)
                              (JSDate.getDate now))
  else if String.eqb (currentFilter st) "week" then
    since (JSDate.ofTime (now - weekMs))
  else if String.eqb (currentFilter st) "month" then
    since (JSDate.ofLocalDate (JSDate.getFullYear now) (JSDate.getMonth now) 1)
  else if String.eqb (currentFilter st) "custom" then
    if negb (given (customStartDate st)) || negb (given (customEndDate st))
    then Rep.dealHistory rep
    else
      let startDate := newDate (customStartDate st) in
      let endDate :=
        JSDate.setHours (newDate (customEndDate st)) 23 59 59 999 in
      List.filter
        (fun deal => JSDate.ge (dealDate deal) startDate
                     && JSDate.le (dealDate deal) endDate)
        (Rep.dealHistory rep)
  else Rep.dealHistory rep.

(** [deals.reduce((sum, deal) => sum + deal.amount, 0)] *)
Definition sumAmounts (deals : list Deal.t) : number :=
  fold_left (fun sum deal => Num.add sum (Deal.amount deal)) deals Num.zero.

(** [getFilteredStats(rep)]: the pair of [deals] and [revenue]. *)
Definition getFilteredStats (st : State) (now : Z) (rep : Rep.t)
  : Z * number :=
  let filteredDeals := getFilteredDeals st now rep in
  (Z.of_nat (length filteredDeals), sumAmounts filteredDeals).

Definition filteredRevenue (st : State) (now : Z) (rep : Rep.t) : number :=
  snd (getFilteredStats st now rep).

(** The top performer of [updateAnalytics]:
    [salesReps.reduce((top, rep) =>
       stats.revenue > topStats.revenue ? rep : top)]
    over a non-empty list, nobody (the text [-]) over the empty one. *)
Definition topPerformer (st : State) (now : Z) : option Rep.t :=
  match salesReps st with
  | first :: rest =>
      Some (fold_left
              (fun top rep =>
                 if Num.gt (filteredRevenue st now rep)
                           (filteredRevenue st now top)
                 then rep else top)
              rest first)
  | [] => None
  end.

(** The local midnight [d.setHours(0, 0, 0, 0)] moves a Date to. *)
Definition localMidnight (d : JSDate.timeValue) : JSDate.timeValue :=
  JSDate.setHours d 0 0 0 0.

(** The deals of one history that [updateAnalytics] counts as today's. *)
Definition isToday (now : Z) (deal : Deal.t) : bool :=
  JSDate.eq (localMidnight (dealDate deal)) (localMidnight (Some now)).


End Filtering.

(* ================================================================== *)
(** * Sessions *)

(** What the user can do to the page. *)
Inductive action : Type :=
  | AddRep (input : string) (now : Z)
  | AddDeal (id : Z) (answer : option string) (now : Z)
  | RemoveRep (id : Z) (confirmed : bool)
  | ChangeDateFilter (value : string)
  | ApplyCustomRange (startValue endValue : string).

Definition step (a : action) (st : State) : State :=
  match a with
  | AddRep input now => addRep input now st
  | AddDeal id answer now => addDeal id answer now st
  | RemoveRep id confirmed => removeRep id confirmed st
  | ChangeDateFilter value => changeDateFilter value st
  | ApplyCustomRange startValue endValue =>
      applyCustomRange startValue endValue st
  end.

(** The state after a sequence of actions, handled one after the other. *)
Definition run (acts : list action) (st : State) : State :=
  fold_left (fun s a => step a s) acts st.

(** The counters of a representative agree with its history. *)
Definition consistent (rep : Rep.t) : Prop :=
  Rep.deals rep = Z.of_nat (length (Rep.dealHistory rep))
  /\ Rep.revenue rep = sumAmounts (Rep.dealHistory rep).

(** [addRep] turns the request down. *)
Definition rejected (input : string) (st : State) : Prop :=
  Str.trim input = EmptyString
  \/ exists rep, In rep (salesReps st)
                 /\ Str.toLowerCase (Rep.name rep)
                    = Str.toLowerCase (Str.trim input).



(** The text, white space skipped, starts with a minus sign. *)
Definition hasMinusSign (s : string) : bool :=
  match Str.trimStart s with
  | String c _ => Str.code c =? 45
  | EmptyString => false
  end.

(* ================================================================== *)
(** * The rest of the dashboard *)

(** [x / y] *)
Definition divide (x y : number) : number := SFdiv Num.prec Num.emax x y.

(** A host whose local time is UTC plus a fixed offset. *)
Definition fixedOffset (offset : Z) : Host :=
  {| LocalTZA := fun _ _ => offset |}.

(** On such a host, the local midnight before [now] and the local
    midnight that starts the month of [now]. *)
Definition midnightAt (offset now : Z) : Z :=
  JSDate.Day (now + offset) * JSDate.msPerDay - offset.

Definition monthStartAt (offset now : Z) : Z :=
  midnightAt offset now
  - (JSDate.getDate (H := fixedOffset offset) now - 1) * JSDate.msPerDay.

(** A time at which every window of the filter starts at a valid time
    value after 1970: the clock is past January 1970 and the offset is
    at most a day. *)
Definition ordinaryTime (offset now : Z) : Prop :=
  Z.abs offset <= JSDate.msPerDay
  /\ 32 * JSDate.msPerDay <= now <= 8640000000000000.

(** [updateStats()]: the three numbers it writes to the page,
    [totalDeals], [totalRevenue] and [avgDealSize]. *)
Definition updateStats {H : Host} (st : State) (now : Z)
  : Z * number * number :=
  let totals :=
    fold_left
      (fun acc rep =>
         let stats := getFilteredStats st now rep in
         (fst acc + fst stats, Num.add (snd acc) (snd stats)))
      (salesReps st) (0, Num.zero) in
  (fst totals, snd totals,
   if 0 <? fst totals then divide (snd totals) (Num.ofZ (fst totals))
   else Num.zero).

(** The inner loop of the highest single deal:
    [if (deal.amount > highestDeal) highestDeal = deal.amount]. *)
Definition raise (highest : number) (deal : Deal.t) : number :=
  if Num.gt (Deal.amount deal) highest then Deal.amount deal else highest.

(** The highest single deal of [updateAnalytics]. *)
Definition highestDeal {H : Host} (st : State) (now : Z) : number :=
  fold_left
    (fun highest rep => fold_left raise (getFilteredDeals st now rep) highest)
    (salesReps st) Num.zero.

(** [l.slice(-n)]: the last [n] elements, all of them when there are
    fewer. *)
Definition sliceLast {A} (n : nat) (l : list A) : list A :=
  skipn (length l - n) l.

(** The deals a card lists: [getFilteredDeals(rep).slice(-5).reverse()].
    The card has no list at all when this is empty. *)
Definition recentDeals {H : Host} (st : State) (now : Z) (rep : Rep.t)
  : list Deal.t :=
  rev (sliceLast 5 (getFilteredDeals st now rep)).

(** A file handed to [downloadFile]: name, content type and content. *)
Record download : Type := mkDownload {
  filename : string;
  contentType : string;
  content : blob
}.

(** The object [exportToJSON] serialises. *)
Definition exportData (now : Z) (st : State) : jsval :=
  VObj [("exportDate", VStr (JSDate.toISOString now));
        ("totalReps", VNum (Num.ofZ (Z.of_nat (length (salesReps st)))));
        ("totalDeals",
         VNum (Num.ofZ (fold_left (fun sum rep => sum + Rep.deals rep)
                                  (salesReps st) 0)));
        ("totalRevenue",
         VNum (fold_left (fun sum rep => Num.add sum (Rep.revenue rep))
                         (salesReps st) Num.zero));
        ("salesReps", VArr (List.map toJS (salesReps st)))].

(** [exportToJSON()] at time [now]: the state afterwards and the file
    downloaded, if any.  The indentation asked of [JSON.stringify] does
    not change the value the text denotes. *)
Definition exportToJSON (now : Z) (st : State) : State * option download :=
  match salesReps st with
  | [] => (alert "No data to export!" st, None)
  | _ :: _ =>
      (st, Some (mkDownload "sales-data-backup.json" "application/json"
                            (JSON_stringify (exportData now st))))
  end.

(** [localStorage.removeItem(k)]: [None] when the call throws. *)
Definition removeItem (k : string) (ls : Storage) : option Storage :=
  match status ls with
  | Blocked => None
  | s => Some (mkStorage (delete k (items ls)) s)
  end.

(** The storage test the script runs first:
    [try { setItem('test', 'works'); getItem('test'); removeItem('test') }
     catch (e) { ... }]. *)
Definition testLocalStorage (ls : Storage) : Storage :=
  match LS.setItem "test" (Raw "works") ls with
  | Some ls1 =>
      match LS.getItem "test" ls1 with
      | Some _ =>
          match removeItem "test" ls1 with
          | Some ls2 => ls2
          | None => ls1
          end
      | None => ls1
      end
  | None => ls
  end.

(** The names of the representatives are not empty, carry no white
    space at either end and differ pairwise even when letter case is
    ignored. *)
Definition wellNamed (reps : list Rep.t) : Prop :=
  Forall (fun rep => Rep.name rep <> EmptyString
                     /\ Str.trim (Rep.name rep) = Rep.name rep) reps
  /\ NoDup (List.map (fun rep => Str.toLowerCase (Rep.name rep)) reps).

(** The store holds the list that is in memory. *)
Definition inSync (st : State) : Prop :=
  items (localStorage st) !! storageKey
  = Some (JSON_stringify (VArr (List.map toJS (salesReps st)))).

(** An action that writes the list to the store when the store works. *)
Definition saves (a : action) (st : State) : Prop :=
  match a with
  | AddRep input _ => ~ rejected input st
  | AddDeal id answer _ =>
      answer <> None
      /\ exists rep, In rep (salesReps st) /\ Rep.id rep = id
  | RemoveRep _ confirmed => confirmed = true
  | ChangeDateFilter _ | ApplyCustomRange _ _ => False
  end.

(** The calendar facts about one day [doe] of the 400-year cycle that
    starts on 0000-03-01: its civil date is a date of the calendar, and
    the day number of that date is the day itself. *)
Definition civilOk (doe : Z) : bool :=
  let '(y, m, d) := JSDate.civilFromDays (doe - 719468) in
  (JSDate.daysFromCivil y m d =? doe - 719468)
  && (0 <=? y) && (y <=? 400)
  && (1 <=? m) && (m <=? 12)
  && (1 <=? d) && (d <=? 31) && (d <=? JSDate.DaysInMonth y (m - 1)).

(** [p] holds of the [n] integers from [start] on. *)
Fixpoint holdsFrom (p : Z -> bool) (n : nat) (start : Z) : bool :=
  match n with
  | O => true
  | S n' => p start && holdsFrom p n' (start + 1)
  end.

(* ================================================================== *)
(** * Properties *)

(** ** What the handlers leave alone *)

Lemma saveData_salesReps st : salesReps (saveData st) = salesReps st.
Proof. unfold saveData. destruct (LS.setItem _ _ _); reflexivity. Qed.

Lemma saveData_filter st :
  currentFilter (saveData st) = currentFilter st
  /\ customStartDate (saveData st) = customStartDate st
  /\ customEndDate (saveData st) = customEndDate st.
Proof. unfold saveData. destruct (LS.setItem _ _ _); auto. Qed.

Lemma updateFirst_length {A} (p : A -> bool) f (l : list A) :
  length (updateFirst p f l) = length l.
Proof.
  induction l as [|x l IH]; simpl; [reflexivity|].
  destruct (p x); simpl; congruence.
Qed.

Lemma updateFirst_none {A} (p : A -> bool) f (l : list A) :
  (forall x, In x l -> p x = false) -> updateFirst p f l = l.
Proof.
  induction l as [|x l IH]; intros Hall; simpl; [reflexivity|].
  rewrite (Hall x (or_introl eq_refl)). f_equal. apply IH.
  intros y Hy. apply Hall. now right.
Qed.

(** Position by position, [updateFirst] either keeps the element or, at
    one position whose element satisfies [p], applies [f]. *)
Lemma updateFirst_lookup {A} (p : A -> bool) f (l : list A) i x :
  l !! i = Some x ->
  updateFirst p f l !! i = Some x
  \/ (p x = true /\ updateFirst p f l !! i = Some (f x)).
Proof.
  revert i. induction l as [|y l IH]; intros i Hi; [discriminate|].
  simpl. destruct (p y) eqn:Hp.
  - destruct i as [|i]; simpl in *.
    + injection Hi as ->. right. auto.
    + left. exact Hi.
  - destruct i as [|i]; simpl in *.
    + left. exact Hi.
    + apply IH. exact Hi.
Qed.

(** At most one position changes. *)
Lemma updateFirst_changes_once {A} (p : A -> bool) f (l : list A) i j x y :
  l !! i = Some x -> updateFirst p f l !! i <> Some x ->
  l !! j = Some y -> updateFirst p f l !! j <> Some y ->
  i = j.
Proof.
  revert i j. induction l as [|z l IH]; intros i j Hi Hi' Hj Hj';
    [discriminate|].
  simpl in Hi', Hj'. destruct (p z).
  - destruct i as [|i]; [|simpl in *; contradiction].
    destruct j as [|j]; [reflexivity|simpl in *; contradiction].
  - destruct i as [|i]; [simpl in *; contradiction|].
    destruct j as [|j]; [simpl in *; contradiction|].
    f_equal. eapply IH; eassumption.
Qed.

Lemma updateFirst_Forall {A} (P : A -> Prop) (p : A -> bool) f (l : list A) :
  (forall x, P x -> P (f x)) -> Forall P l -> Forall P (updateFirst p f l).
Proof.
  intros Hf. induction 1 as [|x l Hx Hl IH]; simpl; [constructor|].
  destruct (p x); constructor; auto.
Qed.

Lemma addDeal_salesReps id answer now st :
  salesReps (addDeal id answer now st) = salesReps st
  \/ exists dealValue,
       answer = Some dealValue
       /\ salesReps (addDeal id answer now st)
          = updateFirst (fun r => Rep.id r =? id)
                        (recordOn (dealAmount dealValue) now) (salesReps st).
Proof.
  unfold addDeal. destruct (List.find _ _); [|now left].
  destruct answer as [dealValue|]; [|now left].
  right. exists dealValue. split; [reflexivity|].
  rewrite saveData_salesReps. reflexivity.
Qed.

(** ** Adding a representative *)

Lemma isEmpty_eq s : Str.isEmpty s = true <-> s = EmptyString.
Proof. destruct s; simpl; split; congruence. Qed.

Lemma app_singleton_neq {A} (l : list A) (x : A) : l ++ [x] <> l.
Proof.
  intros Heq. apply (f_equal (@length A)) in Heq.
  rewrite length_app in Heq. simpl in Heq. lia.
Qed.

Lemma addRep_rejected input now st :
  rejected input st -> addRep input now st
  = alert (if Str.isEmpty (Str.trim input)
           then "Please enter a sales rep name!"
           else "This sales rep already exists!") st.
Proof.
  intros Hrej. unfold addRep.
  destruct (Str.isEmpty (Str.trim input)) eqn:He; [reflexivity|].
  destruct Hrej as [Hrej|[rep [Hin Hname]]].
  - apply isEmpty_eq in Hrej. congruence.
  - destruct (List.find _ _) eqn:Hfind; [reflexivity|].
    apply (find_none _ _ Hfind) in Hin. simpl in Hin.
    rewrite Hname, String.eqb_refl in Hin. discriminate.
Qed.

Lemma addRep_accepted input now st :
  ~ rejected input st ->
  salesReps (addRep input now st)
  = salesReps st ++ [Rep.mk now (Str.trim input) 0 Num.zero []].
Proof.
  intros Hacc. unfold addRep.
  destruct (Str.isEmpty (Str.trim input)) eqn:He.
  { exfalso. apply Hacc. left. now apply isEmpty_eq. }
  destruct (List.find _ _) as [rep|] eqn:Hfind.
  { exfalso. apply Hacc. right. exists rep.
    apply find_some in Hfind. destruct Hfind as [Hin Heq].
    apply String.eqb_eq in Heq. auto. }
  rewrite saveData_salesReps. reflexivity.
Qed.

Lemma rejected_dec input st : rejected input st \/ ~ rejected input st.
Proof.
  unfold rejected.
  destruct (Str.isEmpty (Str.trim input)) eqn:He.
  { left. left. now apply isEmpty_eq. }
  destruct (List.find
              (fun rep => String.eqb (Str.toLowerCase (Rep.name rep))
                                     (Str.toLowerCase (Str.trim input)))
              (salesReps st)) as [rep|] eqn:Hfind.
  - left. right. exists rep. apply find_some in Hfind.
    destruct Hfind as [Hin Heq]. apply String.eqb_eq in Heq. auto.
  - right. intros [Hrej|[rep [Hin Hname]]].
    + apply isEmpty_eq in Hrej. congruence.
    + apply (find_none _ _ Hfind) in Hin. simpl in Hin.
      rewrite Hname, String.eqb_refl in Hin. discriminate.
Qed.

(** The examples of the specification: a second [Alice] in another
    letter case, the empty name and a blank name are turned down. *)
Example addRep_examples :
  let st := addRep "Alice" 1 (initial (mkStorage ∅ Working)) in
  List.map Rep.name (salesReps st) = ["Alice"]
  /\ salesReps (addRep " aLICE " 2 st) = salesReps st
  /\ salesReps (addRep EmptyString 2 st) = salesReps st
  /\ salesReps (addRep "   " 2 st) = salesReps st
  /\ List.map Rep.name (salesReps (addRep " Bob " 2 st)) = ["Alice"; "Bob"].
Proof. vm_compute. repeat split. Qed.

(** C5. [addRep] leaves the list of representatives as it is (and the
    store untouched) exactly when the trimmed name is empty or some
    representative's name equals it up to letter case; in every other
    case the new list is the old one followed by one representative
    with the trimmed name, no deal, no revenue and an empty history. *)
Theorem C5_addRep_rejects_or_appends (input : string) (now : Z) (st : State) :
  let st' := addRep input now st in
  (salesReps st' = salesReps st <-> rejected input st)
  /\ (rejected input st ->
      localStorage st' = localStorage st
      /\ exists msg, alerts st' = msg :: alerts st)
  /\ (~ rejected input st ->
      salesReps st'
      = salesReps st ++ [Rep.mk now (Str.trim input) 0 Num.zero []]).
Proof.
  intros st'. subst st'. split; [|split].
  - split.
    + intros Hsame. destruct (rejected_dec input st) as [Hr|Hr]; [exact Hr|].
      rewrite (addRep_accepted _ _ _ Hr) in Hsame.
      now apply app_singleton_neq in Hsame.
    + intros Hr. rewrite (addRep_rejected _ _ _ Hr). reflexivity.
  - intros Hr. rewrite (addRep_rejected _ _ _ Hr). simpl. eauto.
  - apply addRep_accepted.
Qed.

(** ** Counters and history *)

Lemma sumAmounts_snoc l d :
  sumAmounts (l ++ [d]) = Num.add (sumAmounts l) (Deal.amount d).
Proof. unfold sumAmounts. rewrite fold_left_app. reflexivity. Qed.

Lemma recordOn_consistent value now rep :
  consistent rep -> consistent (recordOn value now rep).
Proof.
  intros [Hd Hr]. split; simpl.
  - rewrite Hd, length_app. simpl. lia.
  - rewrite sumAmounts_snoc, Hr. reflexivity.
Qed.

Lemma step_consistent a st :
  Forall consistent (salesReps st) ->
  Forall consistent (salesReps (step a st)).
Proof.
  intros Hall. destruct a as [input now|id answer now|id c|v|s e]; simpl.
  - unfold addRep. destruct (Str.isEmpty _); [exact Hall|].
    destruct (List.find _ _); [exact Hall|].
    rewrite saveData_salesReps. simpl. apply Forall_app. split; [exact Hall|].
    constructor; [|constructor]. split; reflexivity.
  - unfold addDeal. destruct (List.find _ _); [|exact Hall].
    destruct answer; [|exact Hall].
    rewrite saveData_salesReps. simpl.
    apply updateFirst_Forall; [|exact Hall].
    intros x. apply recordOn_consistent.
  - unfold removeRep. destruct c; [|exact Hall].
    rewrite saveData_salesReps. simpl.
    rewrite List.Forall_forall in *. intros x Hx.
    apply filter_In in Hx. apply Hall, Hx.
  - exact Hall.
  - unfold applyCustomRange. destruct (_ || _); exact Hall.
Qed.

Lemma run_consistent acts st :
  Forall consistent (salesReps st) ->
  Forall consistent (salesReps (run acts st)).
Proof.
  revert st. induction acts as [|a acts IH]; intros st Hall; [exact Hall|].
  simpl. apply IH, step_consistent, Hall.
Qed.

Lemma addDeal_consistent id answer now st (i : nat) rep rep' :
  salesReps st !! i = Some rep -> consistent rep ->
  salesReps (addDeal id answer now st) !! i = Some rep' -> consistent rep'.
Proof.
  intros Hi Hc Hi'.
  destruct (addDeal_salesReps id answer now st) as [Heq|[v [_ Heq]]];
    rewrite Heq in Hi'.
  - congruence.
  - destruct (updateFirst_lookup (fun r => Rep.id r =? id)
                (recordOn (dealAmount v) now) _ _ _ Hi) as [Hk|[_ Hk]];
      rewrite Hk in Hi'; injection Hi' as <-;
      [exact Hc|now apply recordOn_consistent].
Qed.

(** C1. The representative that [addRep] creates has [deals] equal to
    the length of its [dealHistory] and [revenue] equal to the sum of the
    amounts in [dealHistory] (added up from 0 in history order, the two
    sides being the same Number, NaN included); [addDeal] keeps both
    equalities for every representative that has them, whatever the
    other representatives are; and so, starting from the empty list,
    every representative has them after any sequence of actions, hence
    after each action of the sequence. *)
Theorem C1_counters_match_history :
  (forall (input : string) (now : Z) (st : State),
      ~ rejected input st ->
      exists rep,
        salesReps (addRep input now st) = salesReps st ++ [rep]
        /\ consistent rep)
  /\ (forall (id : Z) (answer : option string) (now : Z) (st : State)
             (i : nat) (rep rep' : Rep.t),
        salesReps st !! i = Some rep -> consistent rep ->
        salesReps (addDeal id answer now st) !! i = Some rep' ->
        consistent rep')
  /\ (forall (ls : Storage) (acts : list action),
        Forall consistent (salesReps (run acts (initial ls)))).
Proof.
  split; [|split].
  - intros input now st Hacc. eexists. split.
    + apply addRep_accepted, Hacc.
    + split; reflexivity.
  - apply addDeal_consistent.
  - intros ls acts. apply run_consistent. constructor.
Qed.

(** ** Recording a deal touches one representative *)

(** C10. [addDeal(id)] leaves every representative whose id is not [id]
    as it was, changes at most one representative, keeps the number of
    representatives and the id and the name of each, leaves the filter
    selector and the custom range as they were, and changes nothing in
    the list when no representative has that id. *)
Theorem C10_addDeal_frame (id : Z) (answer : option string) (now : Z)
    (st : State) :
  let st' := addDeal id answer now st in
  length (salesReps st') = length (salesReps st)
  /\ (forall (i : nat) (rep : Rep.t),
        salesReps st !! i = Some rep -> Rep.id rep <> id ->
        salesReps st' !! i = Some rep)
  /\ (forall (i j : nat) (repi repj : Rep.t),
        salesReps st !! i = Some repi -> salesReps st' !! i <> Some repi ->
        salesReps st !! j = Some repj -> salesReps st' !! j <> Some repj ->
        i = j)
  /\ (forall (i : nat) (rep rep' : Rep.t),
        salesReps st !! i = Some rep -> salesReps st' !! i = Some rep' ->
        Rep.id rep' = Rep.id rep /\ Rep.name rep' = Rep.name rep)
  /\ currentFilter st' = currentFilter st
  /\ customStartDate st' = customStartDate st
  /\ customEndDate st' = customEndDate st
  /\ ((forall rep, In rep (salesReps st) -> Rep.id rep <> id) ->
      salesReps st' = salesReps st).
Proof.
  intros st'. subst st'.
  assert (Hfilter :
    currentFilter (addDeal id answer now st) = currentFilter st
    /\ customStartDate (addDeal id answer now st) = customStartDate st
    /\ customEndDate (addDeal id answer now st) = customEndDate st).
  { unfold addDeal. destruct (List.find _ _); [|auto].
    destruct answer; [|auto]. exact (saveData_filter (withReps _ st)). }
  destruct (addDeal_salesReps id answer now st) as [Heq|[v [_ Heq]]];
    rewrite Heq.
  - split; [reflexivity|]. split; [auto|].
    split; [intros i j repi repj Hi Hi'; contradiction|].
    split; [intros i rep rep' Hi Hi'; split; congruence|].
    split; [tauto|]. split; [tauto|]. split; [tauto|]. reflexivity.
  - split; [apply updateFirst_length|].
    split.
    { intros i rep Hi Hne.
      destruct (updateFirst_lookup (fun r => Rep.id r =? id)
                  (recordOn (dealAmount v) now) _ _ _ Hi) as [H|[Hp _]];
        [exact H|].
      apply Z.eqb_eq in Hp. contradiction. }
    split.
    { intros i j repi repj. apply updateFirst_changes_once. }
    split.
    { intros i rep rep' Hi Hi'.
      destruct (updateFirst_lookup (fun r => Rep.id r =? id)
                  (recordOn (dealAmount v) now) _ _ _ Hi) as [H|[_ H]];
        rewrite H in Hi'; injection Hi' as <-; auto. }
    split; [tauto|]. split; [tauto|]. split; [tauto|].
    intros Hnone. apply updateFirst_none.
    intros x Hx. apply Z.eqb_neq, Hnone, Hx.
Qed.

(** ** Order on numbers *)

Ltac order_cases :=
  repeat match goal with
  | H : context [Pos.compare_cont Eq ?a ?b] |- _ =>
      change (Pos.compare_cont Eq a b) with (Pos.compare a b) in H
  | |- context [Pos.compare_cont Eq ?a ?b] =>
      change (Pos.compare_cont Eq a b) with (Pos.compare a b)
  | H : context [Z.compare ?a ?b] |- _ =>
      destruct (Z.compare_spec a b); simpl in H
  | |- context [Z.compare ?a ?b] =>
      destruct (Z.compare_spec a b); simpl
  | H : context [Pos.compare ?a ?b] |- _ =>
      destruct (Pos.compare_spec a b); simpl in H
  | |- context [Pos.compare ?a ?b] =>
      destruct (Pos.compare_spec a b); simpl
  end; subst; try reflexivity; try discriminate; try lia.


Lemma not_lt_le (x y : number) :
  Num.isNaN x = false -> Num.isNaN y = false ->
  Num.lt x y = false -> Num.le y x = true.
Proof.
  unfold Num.lt, Num.le, SFltb, SFleb.
  destruct x as [s|s| |s m e], y as [s'|s'| |s' m' e']; intros Hx Hy;
    try discriminate; simpl; try reflexivity; try discriminate;
    try destruct s; try destruct s'; simpl;
    try reflexivity; try discriminate;
    intros Hlt; order_cases.
Qed.



(** ** The amount of a deal *)

Lemma binary_round_aux_sign (neg : bool) m e l :
  match binary_round_aux Num.prec Num.emax neg m e l with
  | S754_zero s | S754_infinity s | S754_finite s _ _ => s = neg
  | S754_nan => True
  end.
Proof.
  unfold binary_round_aux.
  destruct (shr_fexp _ _ _ _ _) as [mrs1 e1].
  destruct (shr_fexp _ _ _ _ _) as [mrs2 e2].
  destruct (shr_m mrs2); [reflexivity| |exact I].
  destruct (e2 <=? _); reflexivity.
Qed.

Lemma ofDecimal_sign (neg : bool) m e10 :
  match Num.ofDecimal neg m e10 with
  | S754_zero s | S754_infinity s | S754_finite s _ _ => s = neg
  | S754_nan => True
  end.
Proof.
  unfold Num.ofDecimal.
  destruct m as [|p|p]; try reflexivity.
  destruct e10 as [|k|k].
  - destruct (Z.pos p * 10 ^ 0); try reflexivity.
    unfold binary_round. destruct (shl_align _ _ _).
    apply binary_round_aux_sign.
  - destruct (Z.pos p * 10 ^ Z.pos k); try reflexivity.
    unfold binary_round. destruct (shl_align _ _ _).
    apply binary_round_aux_sign.
  - destruct (SFdiv_core_binary _ _ _ _ _ _) as [[q e] l].
    apply binary_round_aux_sign.
Qed.

Lemma parseUnsigned_sign (neg : bool) s :
  match parseUnsigned neg s with
  | S754_zero b | S754_infinity b | S754_finite b _ _ => b = neg
  | S754_nan => True
  end.
Proof.
  unfold parseUnsigned.
  destruct (Str.stripPrefix _ _); [reflexivity|].
  destruct (Str.readDigits 0 0 s) as [[m1 n1] r1].
  destruct r1 as [|c r1'].
  - destruct (n1 =? 0); [exact I|apply ofDecimal_sign].
  - destruct (Str.code c =? 46).
    + destruct (Str.readDigits m1 0 r1') as [[m2 n2] r2].
      destruct ((n1 =? 0) && (n2 =? 0)); [exact I|apply ofDecimal_sign].
    + destruct (n1 =? 0); [exact I|apply ofDecimal_sign].
Qed.

(** A number whose sign bit is clear is not below zero. *)
Lemma positive_sign_not_negative (x : number) :
  match x with
  | S754_zero s | S754_infinity s | S754_finite s _ _ => s = false
  | S754_nan => True
  end ->
  Num.lt x Num.zero = false.
Proof. destruct x as [s|s| |s m e]; intros Hs; subst; reflexivity. Qed.

Lemma parseFloat_unsigned_not_negative s :
  hasMinusSign s = false -> Num.lt (parseFloat s) Num.zero = false.
Proof.
  unfold hasMinusSign, parseFloat.
  destruct (Str.trimStart s) as [|c t]; [reflexivity|].
  intros ->. apply positive_sign_not_negative.
  destruct (Str.code c =? 43); apply parseUnsigned_sign.
Qed.

Lemma dealAmount_not_NaN s : Num.isNaN (dealAmount s) = false.
Proof.
  unfold dealAmount, Num.truthy.
  destruct (parseFloat s); reflexivity.
Qed.

Lemma dealAmount_of_NaN s :
  Num.isNaN (parseFloat s) = true -> dealAmount s = Num.zero.
Proof.
  unfold dealAmount, Num.truthy. intros ->. reflexivity.
Qed.

Lemma dealAmount_negative s :
  Num.lt (dealAmount s) Num.zero = Num.lt (parseFloat s) Num.zero.
Proof.
  unfold dealAmount, Num.truthy.
  destruct (parseFloat s); reflexivity.
Qed.

Lemma find_updateFirst {A} (p : A -> bool) f (l : list A) x :
  List.find p l = Some x -> p (f x) = true ->
  List.find p (updateFirst p f l) = Some (f x).
Proof.
  intros Hfind Hp. induction l as [|y l IH]; [discriminate|].
  simpl in *. destruct (p y) eqn:Hy.
  - injection Hfind as ->. simpl. now rewrite Hp.
  - simpl. rewrite Hy. auto.
Qed.

(** What the prompt's answer becomes: text without a number, the empty
    answer and a negative zero give 0; a number followed by other text
    is read up to that text. *)
Example dealAmount_examples :
  dealAmount "abc" = Num.zero
  /\ dealAmount EmptyString = Num.zero
  /\ dealAmount "-0" = Num.zero
  /\ dealAmount "  12.5 USD" = Num.ofDecimal false 125 (-1)
  /\ dealAmount "1e3" = Num.ofZ 1000
  /\ dealAmount "-5" = Num.ofZ (-5).
Proof. vm_compute. repeat split. Qed.

(** C2 as stated fails: the answer [-5] is stored as the amount -5,
    which is below zero. *)
Lemma C2_negative_amount_is_stored :
  let st := addRep "Ann" 1 (initial (mkStorage ∅ Working)) in
  let st' := addDeal 1 (Some "-5") 2 st in
  exists rep deal,
    salesReps st' = [rep]
    /\ Rep.dealHistory rep = [deal]
    /\ Deal.amount deal = Num.ofZ (-5)
    /\ Num.lt (Deal.amount deal) Num.zero = true.
Proof.
  vm_compute. eexists. eexists. repeat split.
Qed.

(** C2, amended. An answer to the prompt is never turned down: the
    representative found gets exactly one more deal, dated [now], whose
    amount is [parseFloat(answer) || 0].  That amount is never NaN; it
    is 0 when [parseFloat] reads no number; it is at least 0 when the
    text carries no minus sign; and it is negative exactly when
    [parseFloat] reads a negative number, which is stored as it is. *)
Theorem C2_amount_coercion (id : Z) (dealValue : string) (now : Z)
    (st : State) (rep : Rep.t) :
  List.find (fun r => Rep.id r =? id) (salesReps st) = Some rep ->
  let st' := addDeal id (Some dealValue) now st in
  let amount := dealAmount dealValue in
  List.find (fun r => Rep.id r =? id) (salesReps st')
  = Some (recordOn amount now rep)
  /\ Rep.dealHistory (recordOn amount now rep)
     = Rep.dealHistory rep ++ [Deal.mk (JSDate.toISOString now) amount]
  /\ Num.isNaN amount = false
  /\ (Num.isNaN (parseFloat dealValue) = true -> amount = Num.zero)
  /\ (hasMinusSign dealValue = false -> Num.le Num.zero amount = true)
  /\ (Num.lt amount Num.zero = true
      <-> Num.lt (parseFloat dealValue) Num.zero = true).
Proof.
  intros Hfind st' amount. subst st' amount.
  split.
  { unfold addDeal. rewrite Hfind, saveData_salesReps. simpl.
    apply find_updateFirst; [exact Hfind|].
    apply find_some in Hfind. exact (proj2 Hfind). }
  split; [reflexivity|].
  split; [apply dealAmount_not_NaN|].
  split; [apply dealAmount_of_NaN|].
  split.
  { intros Hsign. apply not_lt_le; [apply dealAmount_not_NaN|reflexivity|].
    rewrite dealAmount_negative.
    now apply parseFloat_unsigned_not_negative. }
  rewrite dealAmount_negative. tauto.
Qed.

Lemma C2_amount_coercion_witness :
  let st := addRep "Ann" 1 (initial (mkStorage ∅ Working)) in
  let rep := Rep.mk 1 "Ann" 0 Num.zero [] in
  List.find (fun r => Rep.id r =? 1) (salesReps st) = Some rep
  /\ List.find (fun r => Rep.id r =? 1)
               (salesReps (addDeal 1 (Some "12.5 USD") 2 st))
     = Some (recordOn (dealAmount "12.5 USD") 2 rep).
Proof.
  split; [reflexivity|].
  apply (C2_amount_coercion 1 "12.5 USD" 2
           (addRep "Ann" 1 (initial (mkStorage ∅ Working)))
           (Rep.mk 1 "Ann" 0 Num.zero [])).
  reflexivity.
Defined.

(** ** The custom range *)

Lemma getFilteredDeals_custom_incomplete {H : Host} st now rep :
  currentFilter st = "custom" ->
  negb (given (customStartDate st)) || negb (given (customEndDate st)) = true ->
  getFilteredDeals st now rep = Rep.dealHistory rep.
Proof. unfold getFilteredDeals. intros -> ->. reflexivity. Qed.

(** C3 as stated fails.  With the weekly filter active and one deal
    older than a week, choosing [custom] and applying a range without a
    start date leaves the selector at [custom], not at [week], and the
    filter then lets the whole history through, not the week's. *)
Lemma C3_incomplete_range_replaces_filter :
  let now := 1710506096789 in
  let st := changeDateFilter "week"
              (addDeal 1 (Some "100") 1704067200000
                 (addRep "Ann" 1 (initial (mkStorage ∅ Working)))) in
  let st' := setCustomFilter EmptyString "2024-03-31" st in
  currentFilter st = "week"
  /\ currentFilter st' = "custom"
  /\ List.map (getFilteredDeals (H := utcHost) st now) (salesReps st) = [[]]
  /\ List.map (getFilteredDeals (H := utcHost) st' now) (salesReps st')
     = [[Deal.mk "2024-01-01T00:00:00.000Z" (Num.ofZ 100)]].
Proof. vm_compute. repeat split. Qed.

(** C3, amended. Choosing [custom] and applying a range whose start or
    end date is missing raises the warning and touches neither the
    representatives nor the store; but the selector is [custom] from
    then on, the incomplete range is what the two variables hold, and
    filtering returns every representative's whole history. *)
Theorem C3_incomplete_custom_range {H : Host} (startValue endValue : string)
    (st : State) :
  startValue = EmptyString \/ endValue = EmptyString ->
  let st' := setCustomFilter startValue endValue st in
  currentFilter st' = "custom"
  /\ customStartDate st' = Some startValue
  /\ customEndDate st' = Some endValue
  /\ salesReps st' = salesReps st
  /\ localStorage st' = localStorage st
  /\ alerts st' = "Please select both start and end dates" :: alerts st
  /\ (forall (now : Z) (rep : Rep.t),
        getFilteredDeals st' now rep = Rep.dealHistory rep).
Proof.
  intros Hmissing st'.
  assert (Hguard : negb (given (Some startValue))
                   || negb (given (Some endValue)) = true).
  { destruct Hmissing as [-> | ->]; simpl; [reflexivity|].
    apply orb_true_r. }
  subst st'. unfold setCustomFilter, applyCustomRange.
  rewrite Hguard. simpl.
  repeat (split; [reflexivity|]).
  intros now rep. apply getFilteredDeals_custom_incomplete; [reflexivity|].
  exact Hguard.
Qed.

Lemma C3_incomplete_custom_range_witness :
  (EmptyString = EmptyString \/ "2024-03-31" = EmptyString)
  /\ currentFilter
       (setCustomFilter EmptyString "2024-03-31"
          (initial (mkStorage ∅ Working)))
     = "custom".
Proof.
  split; [left; reflexivity|].
  apply (C3_incomplete_custom_range (H := utcHost) EmptyString "2024-03-31"
           (initial (mkStorage ∅ Working))).
  left. reflexivity.
Defined.

(** ** The weekly window *)




(** The example of the specification: deals of 100, 200 and 300 made
    eight days ago, two days ago and now.  The weekly filter counts two
    deals worth 500, no filter three deals worth 600. *)
Example filtered_stats_week_and_all :
  let now := 1710506096789 in
  let st := addDeal 1 (Some "300") now
              (addDeal 1 (Some "200") (now - 2 * JSDate.msPerDay)
                 (addDeal 1 (Some "100") (now - 8 * JSDate.msPerDay)
                    (addRep "Ann" 1 (initial (mkStorage ∅ Working))))) in
  List.map (getFilteredStats (H := utcHost) (changeDateFilter "week" st) now)
           (salesReps st)
  = [(2, Num.ofZ 500)]
  /\ List.map (getFilteredStats (H := utcHost) st now) (salesReps st)
     = [(3, Num.ofZ 600)].
Proof. vm_compute. split; reflexivity. Qed.

(** ** Stored values *)

(** Induction on a value together with the values nested in it. *)
Lemma jsval_nested_ind (P : jsval -> Prop) :
  P VNull ->
  (forall b, P (VBool b)) ->
  (forall n, P (VNum n)) ->
  (forall s, P (VStr s)) ->
  (forall l, Forall P l -> P (VArr l)) ->
  (forall ps, Forall (fun kv => P (snd kv)) ps -> P (VObj ps)) ->
  forall v, P v.
Proof.
  intros Hnull Hbool Hnum Hstr Harr Hobj.
  fix IH 1. intros [|b|n|s|l|ps].
  - exact Hnull.
  - apply Hbool.
  - apply Hnum.
  - apply Hstr.
  - apply Harr. induction l as [|x l IHl]; constructor; [apply IH|exact IHl].
  - apply Hobj. induction ps as [|kv ps IHps]; constructor;
      [apply IH|exact IHps].
Qed.

(** A value in which every number is finite and not negative zero is
    written and read back as itself. *)
Lemma rewritten_exact (v : jsval) : JS.exact v = true -> JS.rewritten v = v.
Proof.
  induction v as [|b|n|s|l IH|ps IH] using jsval_nested_ind;
    simpl; intros Hex; try reflexivity.
  - destruct n as [[|]|s| |s m e]; simpl in *; try discriminate; reflexivity.
  - f_equal. induction IH as [|x l Hx _ IHl]; [reflexivity|].
    simpl in Hex. apply andb_true_iff in Hex. destruct Hex as [Hx' Hl'].
    simpl. rewrite (Hx Hx'), (IHl Hl'). reflexivity.
  - f_equal. induction IH as [|[k x] ps Hx _ IHps]; [reflexivity|].
    simpl in Hex. apply andb_true_iff in Hex. destruct Hex as [Hx' Hps'].
    simpl in *. rewrite (Hx Hx'), (IHps Hps'). reflexivity.
Qed.

Lemma rewritten_exact_list (l : list jsval) :
  forallb JS.exact l = true -> List.map JS.rewritten l = l.
Proof.
  induction l as [|x l IH]; simpl; [reflexivity|].
  intros Hex. apply andb_true_iff in Hex. destruct Hex as [Hx Hl].
  rewrite (rewritten_exact x Hx), (IH Hl). reflexivity.
Qed.






Lemma mapThrowing_fixed {A} (f : A -> option A) l :
  Forall (fun x => f x = Some x) l -> mapThrowing f l = Some l.
Proof.
  induction 1 as [|x l Hx _ IH]; simpl; [reflexivity|].
  rewrite Hx, IH. reflexivity.
Qed.



(** ** Migration at load time *)






(** The legacy record of the specification, [{id: 1, name: "Bob",
    deals: 3}], as [load] returns it. *)
Example load_legacy_bob :
  load (mkStorage {[ storageKey :=
          Doc (VArr [VObj [("id", VNum (Num.ofZ 1)); ("name", VStr "Bob");
                           ("deals", VNum (Num.ofZ 3))]]) ]} Working)
  = [VObj [("id", VNum (Num.ofZ 1)); ("name", VStr "Bob");
           ("deals", VNum (Num.ofZ 3)); ("revenue", VNum Num.zero);
           ("dealHistory", VArr [])]].
Proof. vm_compute. reflexivity. Qed.

(** ** Saving and loading *)

Lemma migrate_toJS rep : migrate (toJS rep) = Some (toJS rep).
Proof. reflexivity. Qed.

(** What [load] finds after a write that the store accepted. *)
Lemma load_after_write (ls : Storage) (l : list jsval) :
  status ls = Working ->
  forall ls', LS.setItem storageKey (JSON_stringify (VArr l)) ls = Some ls' ->
  LS.getItem storageKey ls'
  = Some (Some (Doc (VArr (List.map JS.rewritten l)))).
Proof.
  intros Hw ls'. unfold LS.setItem, LS.getItem. rewrite Hw.
  intros Hset. injection Hset as <-. simpl.
  now rewrite lookup_insert_eq.
Qed.

(** C7 as stated fails.  After the answer [1e999] to the prompt, the
    representative's revenue and the amount of its deal are Infinity;
    [saveData] writes both as [null], and that is what [load] returns. *)
Lemma C7_infinite_amount_not_restored :
  let st := addDeal 1 (Some "1e999") 1710506096789
              (addRep "Ann" 1 (initial (mkStorage ∅ Working))) in
  List.map toJS (salesReps st)
  = [VObj [("id", VNum (Num.ofZ 1)); ("name", VStr "Ann");
           ("deals", VNum (Num.ofZ 1)); ("revenue", VNum Num.Infinity);
           ("dealHistory",
            VArr [VObj [("date", VStr "2024-03-15T12:34:56.789Z");
                        ("amount", VNum Num.Infinity)]])]]
  /\ load (localStorage (saveData st))
     = [VObj [("id", VNum (Num.ofZ 1)); ("name", VStr "Ann");
              ("deals", VNum (Num.ofZ 1)); ("revenue", VNull);
              ("dealHistory",
               VArr [VObj [("date", VStr "2024-03-15T12:34:56.789Z");
                           ("amount", VNull)]])]]
  /\ load (localStorage (saveData st)) <> List.map toJS (salesReps st).
Proof. vm_compute. repeat split. discriminate. Qed.

(** C7, amended. When the store accepts the write and every number in
    the list is finite (and not negative zero), [saveData] followed by
    [load] returns the representatives as they are in memory.  A number
    that is not finite comes back as [null]. *)
Theorem C7_save_then_load (st : State) :
  status (localStorage st) = Working ->
  forallb (fun rep => JS.exact (toJS rep)) (salesReps st) = true ->
  load (localStorage (saveData st)) = List.map toJS (salesReps st).
Proof.
  intros Hw Hex. unfold saveData.
  destruct (LS.setItem _ _ _) as [ls'|] eqn:Hset.
  - simpl. pose proof (load_after_write _ _ Hw ls' Hset) as Hget.
    rewrite rewritten_exact_list in Hget.
    + unfold load. rewrite Hget. simpl.
      rewrite mapThrowing_fixed; [reflexivity|].
      apply List.Forall_forall. intros v Hv.
      apply in_map_iff in Hv. destruct Hv as [rep [<- _]].
      apply migrate_toJS.
    + rewrite forallb_forall in *. intros v Hv.
      apply in_map_iff in Hv. destruct Hv as [rep [<- Hrep]]. auto.
  - unfold LS.setItem in Hset. rewrite Hw in Hset. discriminate.
Qed.

Lemma C7_save_then_load_witness :
  let st := addDeal 1 (Some "12.5") 1710506096789
              (addRep "Ann" 1 (initial (mkStorage ∅ Working))) in
  status (localStorage st) = Working
  /\ forallb (fun rep => JS.exact (toJS rep)) (salesReps st) = true
  /\ load (localStorage (saveData st)) = List.map toJS (salesReps st).
Proof.
  split; [reflexivity|]. split; [reflexivity|].
  apply (C7_save_then_load
           (addDeal 1 (Some "12.5") 1710506096789
              (addRep "Ann" 1 (initial (mkStorage ∅ Working)))));
    reflexivity.
Defined.

(** ** The top performer *)

Section Best.
Context {A : Type} (score : A -> number).




End Best.




(** The example of the specification: with filtered revenues 50, 200
    and 200, the second representative is the top performer. *)
Example topPerformer_tie :
  let now := 1710506096789 in
  let st := addDeal 3 (Some "200") now
              (addRep "Cy" 3
                 (addDeal 2 (Some "200") now
                    (addRep "Bob" 2
                       (addDeal 1 (Some "50") now
                          (addRep "Ann" 1
                             (initial (mkStorage ∅ Working))))))) in
  option_map Rep.name (topPerformer (H := utcHost) st now) = Some "Bob".
Proof. vm_compute. reflexivity. Qed.

(** ** Deals closed today *)




(** On a host whose local time is UTC plus a fixed offset, and at a time
    [now] whose local midnight is a valid time value, a deal counts as
    today's exactly when its date is valid and falls on the same local
    calendar day as [now]. *)
Lemma isToday_same_local_day (offset now : Z) (deal : Deal.t) :
  let host := {| LocalTZA := fun _ _ => offset |} in
  Z.abs (JSDate.Day (now + offset) * JSDate.msPerDay - offset)
    <= 8640000000000000 ->
  isToday (H := host) now deal = true
  <-> exists t, dealDate deal = Some t
                /\ JSDate.Day (t + offset) = JSDate.Day (now + offset).
Proof.
  intros host Hvalid.
  unfold isToday, localMidnight, JSDate.setHours, JSDate.eq.
  unfold JSDate.UTC, JSDate.LocalTime, JSDate.MakeDate, JSDate.MakeTime.
  simpl LocalTZA.
  replace (JSDate.Day (now + offset) * JSDate.msPerDay
           + (0 * JSDate.msPerHour + 0 * JSDate.msPerMinute
              + 0 * JSDate.msPerSecond + 0) - offset)
    with (JSDate.Day (now + offset) * JSDate.msPerDay - offset) by lia.
  unfold JSDate.TimeClip at 2.
  apply Z.leb_le in Hvalid. rewrite Hvalid. apply Z.leb_le in Hvalid.
  destruct (dealDate deal) as [t|].
  - replace (JSDate.Day (t + offset) * JSDate.msPerDay
             + (0 * JSDate.msPerHour + 0 * JSDate.msPerMinute
                + 0 * JSDate.msPerSecond + 0) - offset)
      with (JSDate.Day (t + offset) * JSDate.msPerDay - offset) by lia.
    unfold JSDate.TimeClip. split.
    + destruct (Z.abs _ <=? _); [|discriminate].
      intros Heq. apply Z.eqb_eq in Heq. exists t. split; [reflexivity|].
      unfold JSDate.msPerDay in Heq. lia.
    + intros [t' [Ht' Hday]]. injection Ht' as <-. rewrite Hday.
      apply Z.leb_le in Hvalid. rewrite Hvalid. apply Z.eqb_refl.
  - split; [discriminate|]. intros [t [Ht _]]. discriminate.
Qed.
